(** * train.py: polynomial regression script

    A shallow embedding of [train.py].  The script is a straight line of
    calls into pandas and scikit-learn followed by two [print]s.  The calls
    are embedded in a state-and-exception monad over an explicit [World]
    (file system, working directory, environment, arguments, standard
    output and a log of the calls made).

    Numbers are IEEE binary64 values ([PrimFloat.float]), the element type
    of the arrays scikit-learn works on. *)

From Stdlib Require Import List String Ascii Bool Arith ZArith Lia.
From Stdlib Require Import DecimalString SpecFloat FloatOps PrimFloat.
Import ListNotations.
Local Open Scope string_scope.
Local Open Scope list_scope.

(** ** Python runtime: exceptions and results *)

Inductive exn : Type :=
| FileNotFoundError (path : string)
| ParserError (msg : string)
| KeyError (keys : list string)
| ValueError (msg : string)
| AttributeError (name : string)
| NotFittedError.

Inductive result (A : Type) : Type :=
| Ok (a : A)
| Raise (e : exn).

Arguments Ok {A} a.
Arguments Raise {A} e.

Definition result_bind {A B : Type} (r : result A) (k : A -> result B) : result B :=
  match r with
  | Ok a => k a
  | Raise e => Raise e
  end.

Fixpoint result_mapM {A B : Type} (f : A -> result B) (l : list A) : result (list B) :=
  match l with
  | [] => Ok []
  | a :: l' =>
      result_bind (f a) (fun b =>
      result_bind (result_mapM f l') (fun bs => Ok (b :: bs)))
  end.

(** ** Data: pandas tables and numpy arrays *)

(** A cell of a table read from a delimited text file: a number (int64 and
    float64 columns, carried as the binary64 value the estimators convert
    them to) or text (object columns). *)
Inductive cell : Type :=
| Num (x : float)
| Str (s : string).

Definition Series : Type := list cell.

(** A [DataFrame] is its labelled columns, in order. *)
Definition DataFrame : Type := list (string * Series).

(** A two-dimensional float64 array, row-major. *)
Definition matrix : Type := list (list float).

(** ** The calls the script makes, as logged *)

Inductive call : Type :=
| c_read_csv (path : string)
| c_getitem_list (keys : list string)
| c_getitem (key : string)
| c_PolynomialFeatures (degree : nat)
| c_fit_transform (X : DataFrame)
| c_LinearRegression
| c_fit (X : matrix) (y : Series)
| c_predict (X : matrix)
| c_print (args : list string).

(** ** The world a run acts on *)

Record World : Type := mkWorld {
  fs : string -> option string;       (* absolute path to file content *)
  cwd : string;
  environ : list (string * string);
  argv : list string;
  stdout : string;
  calls : list call
}.

Definition set_stdout (w : World) (s : string) : World :=
  mkWorld (fs w) (cwd w) (environ w) (argv w) s (calls w).

Definition set_calls (w : World) (l : list call) : World :=
  mkWorld (fs w) (cwd w) (environ w) (argv w) (stdout w) l.

Definition set_environ (w : World) (e : list (string * string)) : World :=
  mkWorld (fs w) (cwd w) e (argv w) (stdout w) (calls w).

Definition set_argv (w : World) (a : list string) : World :=
  mkWorld (fs w) (cwd w) (environ w) a (stdout w) (calls w).

(** ** The monad of the script: state passing with exceptions *)

Definition Py (A : Type) : Type := World -> result A * World.

Definition ret {A : Type} (a : A) : Py A := fun w => (Ok a, w).

Definition raise {A : Type} (e : exn) : Py A := fun w => (Raise e, w).

Definition bind {A B : Type} (m : Py A) (k : A -> Py B) : Py B :=
  fun w =>
    match m w with
    | (Ok a, w') => k a w'
    | (Raise e, w') => (Raise e, w')
    end.

Definition lift {A : Type} (r : result A) : Py A := fun w => (r, w).

Definition log (c : call) : Py unit :=
  fun w => (Ok tt, set_calls w (calls w ++ [c])).

Declare Scope py_scope.
Delimit Scope py_scope with py.
Notation "x <- m ;; k" := (bind m (fun x => k))
  (at level 61, m at next level, right associativity) : py_scope.
Notation "m ;;; k" := (bind m (fun _ => k))
  (at level 61, right associativity) : py_scope.

(** ** Strings *)

Definition nl : string := String (ascii_of_nat 10) EmptyString.

Fixpoint count_lines (s : string) : nat :=
  match s with
  | EmptyString => 0
  | String c s' =>
      (if Ascii.eqb c (ascii_of_nat 10) then 1 else 0) + count_lines s'
  end.

(** [os.path.join(cwd, path)] on a POSIX system. *)
Definition os_path_join (dir path : string) : string :=
  match path with
  | String "/"%char _ => path
  | _ => dir ++ "/" ++ path
  end.

(** ** The third-party routines the script calls but does not define

    The text parser behind [pandas.read_csv], the least-squares solver
    behind [LinearRegression.fit], the evaluation behind
    [LinearRegression.predict] and numpy's [str] of an array and of a
    float64 scalar are taken as parameters: any functions of these types. *)
Record Library : Type := mkLibrary {
  read_csv_parse : string -> result DataFrame;
  lstsq : matrix -> Series -> result (list float * float);
  decision_function : list float -> float -> matrix -> result (list float);
  str_ndarray : list float -> string;
  str_float64 : float -> string
}.

(** ** pandas *)

Module pd.

(** Modelled from the spec: pandas itself is not under src/.  A column is
    found by its label; delimited text read by [read_csv] has no two
    columns of one label, so the first match is the match. *)
Fixpoint lookup_column (df : DataFrame) (key : string) : option Series :=
  match df with
  | [] => None
  | (k, col) :: df' =>
      if String.eqb k key then Some col else lookup_column df' key
  end.

Definition has_column (df : DataFrame) (key : string) : bool :=
  match lookup_column df key with
  | Some _ => true
  | None => false
  end.

(** Modelled from the spec: [df[[k1, ..., kn]]], the table of the named
    columns in the order asked for; a label that is not a column raises
    [KeyError] (the spec: a missing column aborts execution). *)
Definition getitem_list (df : DataFrame) (keys : list string) : result DataFrame :=
  match filter (fun k => negb (has_column df k)) keys with
  | [] =>
      Ok (flat_map (fun k =>
                      match lookup_column df k with
                      | Some col => [(k, col)]
                      | None => []
                      end) keys)
  | missing => Raise (KeyError missing)
  end.

(** Modelled from the spec: [df[k]], the column labelled [k], or
    [KeyError]. *)
Definition getitem (df : DataFrame) (key : string) : result Series :=
  match lookup_column df key with
  | Some col => Ok col
  | None => Raise (KeyError [key])
  end.

End pd.

(** ** scikit-learn *)

Module sklearn.

Definition n_samples (X : DataFrame) : nat :=
  match X with
  | [] => 0
  | (_, col) :: _ => List.length col
  end.

Definition row_cells (X : DataFrame) (i : nat) : list cell :=
  map (fun c => nth i (snd c) (Num nan)) X.

Definition to_float64 (c : cell) : result float :=
  match c with
  | Num x =>
      if is_finite x then Ok x
      else Raise (ValueError "Input X contains NaN or infinity.")
  | Str s => Raise (ValueError "could not convert string to float")
  end.

(** Modelled from the spec: scikit-learn's input validation is not under
    src/.  The table becomes a float64 array of its rows; it must have a
    row and a column, and every cell must be a finite number, or the call
    raises [ValueError] (the spec: malformed input aborts with the
    library's error). *)
Definition check_array (X : DataFrame) : result matrix :=
  match X, n_samples X with
  | [], _ => Raise (ValueError "Found array with 0 feature(s)")
  | _, 0 => Raise (ValueError "Found array with 0 sample(s)")
  | _, n => result_mapM (fun i => result_mapM to_float64 (row_cells X i)) (seq 0 n)
  end.

(** [PolynomialFeatures(degree=d)]: the other constructor arguments keep
    their defaults. *)
Record PolynomialFeatures : Type := mkPolynomialFeatures {
  degree : nat;
  interaction_only : bool;
  include_bias : bool
}.

Definition PolynomialFeatures_init (d : nat) : PolynomialFeatures :=
  mkPolynomialFeatures d false true.

(** [itertools.combinations_with_replacement(pool, r)] when
    [replacement], [itertools.combinations(pool, r)] otherwise, in
    lexicographic order. *)
Fixpoint combinations (replacement : bool) (r : nat) (pool : list nat) : list (list nat) :=
  match r with
  | 0 => [[]]
  | S r' =>
      (fix from (l : list nat) : list (list nat) :=
         match l with
         | [] => []
         | i :: tl =>
             map (cons i) (combinations replacement r' (if replacement then l else tl))
             ++ from tl
         end) pool
  end.

(** Modelled from the spec: the glossary's polynomial features, "expansion
    of input variables into their polynomial combinations up to a given
    degree".  The index tuples of the output columns: the empty tuple for
    the bias column, then the tuples of each degree from 1 up to
    [degree]. *)
Definition powers (pf : PolynomialFeatures) (n_features : nat) : list (list nat) :=
  (if include_bias pf then [[]] else [])
  ++ flat_map (fun d => combinations (negb (interaction_only pf)) d (seq 0 n_features))
              (seq 1 (degree pf)).

(** The product of the selected entries; the empty product is 1. *)
Definition prod (xs : list float) : float :=
  match xs with
  | [] => one
  | x :: xs' => fold_left PrimFloat.mul xs' x
  end.

Definition transform_row (pf : PolynomialFeatures) (n_features : nat) (x : list float) : list float :=
  map (fun comb => prod (map (fun j => nth j x nan) comb)) (powers pf n_features).

(** Modelled from the spec: [PolynomialFeatures.fit_transform], not under
    src/: validate the table, then expand every row. *)
Definition fit_transform (pf : PolynomialFeatures) (X : DataFrame) : result matrix :=
  result_bind (check_array X) (fun M => Ok (map (transform_row pf (List.length X)) M)).

(** [LinearRegression()]: the attributes [coef_] and [intercept_] exist
    once [fit] has run. *)
Record LinearRegression : Type := mkLinearRegression {
  fit_intercept : bool;
  coef_ : option (list float);
  intercept_ : option float
}.

Definition LinearRegression_init : LinearRegression :=
  mkLinearRegression true None None.

End sklearn.

(** ** The script *)

Section Script.

Variable L : Library.

Local Open Scope py_scope.

(** [pd.read_csv(path)]: open the file named [path], relative to the
    working directory, and parse its text. *)
Definition pd_read_csv (path : string) : Py DataFrame :=
  log (c_read_csv path) ;;;
  (fun w =>
     match fs w (os_path_join (cwd w) path) with
     | None => (Raise (FileNotFoundError path), w)
     | Some text => (read_csv_parse L text, w)
     end).

Definition DataFrame_getitem_list (data : DataFrame) (keys : list string) : Py DataFrame :=
  log (c_getitem_list keys) ;;; lift (pd.getitem_list data keys).

Definition DataFrame_getitem (data : DataFrame) (key : string) : Py Series :=
  log (c_getitem key) ;;; lift (pd.getitem data key).

Definition PolynomialFeatures (d : nat) : Py sklearn.PolynomialFeatures :=
  log (c_PolynomialFeatures d) ;;; ret (sklearn.PolynomialFeatures_init d).

Definition fit_transform (pf : sklearn.PolynomialFeatures) (X : DataFrame) : Py matrix :=
  log (c_fit_transform X) ;;; lift (sklearn.fit_transform pf X).

Definition LinearRegression : Py sklearn.LinearRegression :=
  log c_LinearRegression ;;; ret sklearn.LinearRegression_init.

(** [model.fit(X, y)] stores the solution in the estimator; the updated
    estimator is passed on. *)
Definition fit (model : sklearn.LinearRegression) (X : matrix) (y : Series)
  : Py sklearn.LinearRegression :=
  log (c_fit X y) ;;;
  p <- lift (lstsq L X y) ;;
  ret (sklearn.mkLinearRegression (sklearn.fit_intercept model) (Some (fst p)) (Some (snd p))).

Definition predict (model : sklearn.LinearRegression) (X : matrix) : Py (list float) :=
  log (c_predict X) ;;;
  match sklearn.coef_ model, sklearn.intercept_ model with
  | Some c, Some b => lift (decision_function L c b X)
  | _, _ => raise NotFittedError
  end.

Definition get_coef_ (model : sklearn.LinearRegression) : Py (list float) :=
  match sklearn.coef_ model with
  | Some c => ret c
  | None => raise (AttributeError "coef_")
  end.

Definition get_intercept_ (model : sklearn.LinearRegression) : Py float :=
  match sklearn.intercept_ model with
  | Some b => ret b
  | None => raise (AttributeError "intercept_")
  end.

(** [print(a, b)]: the arguments' [str]s joined by a space, then a newline. *)
Definition print (args : list string) : Py unit :=
  log (c_print args) ;;;
  (fun w => (Ok tt, set_stdout w (stdout w ++ String.concat " " args ++ nl))).

(** The module body of train.py, statement by statement. *)
Definition main : Py unit :=
  data <- pd_read_csv "sample.csv" ;;
  X <- DataFrame_getitem_list data ["value"; "age"] ;;
  y <- DataFrame_getitem data "name" ;;
  poly_features <- PolynomialFeatures 2 ;;
  X_poly <- fit_transform poly_features X ;;
  model0 <- LinearRegression ;;
  model <- fit model0 X_poly y ;;
  y_pred <- predict model X_poly ;;
  coef <- get_coef_ model ;;
  print ["Coefficients:"; str_ndarray L coef] ;;;
  intercept <- get_intercept_ model ;;
  print ["Intercept:"; str_float64 L intercept].

(** The same script with the statement [y_pred = model.predict(X_poly)]
    taken out. *)
Definition main_without_predict : Py unit :=
  data <- pd_read_csv "sample.csv" ;;
  X <- DataFrame_getitem_list data ["value"; "age"] ;;
  y <- DataFrame_getitem data "name" ;;
  poly_features <- PolynomialFeatures 2 ;;
  X_poly <- fit_transform poly_features X ;;
  model0 <- LinearRegression ;;
  model <- fit model0 X_poly y ;;
  coef <- get_coef_ model ;;
  print ["Coefficients:"; str_ndarray L coef] ;;;
  intercept <- get_intercept_ model ;;
  print ["Intercept:"; str_float64 L intercept].

(** The statements up to and including [model.fit], followed by [k]; and
    the two closing [print] statements.  Both scripts are [until_fit]
    followed by [report], with or without the prediction in between. *)
Definition until_fit (k : matrix -> sklearn.LinearRegression -> Py unit) : Py unit :=
  data <- pd_read_csv "sample.csv" ;;
  X <- DataFrame_getitem_list data ["value"; "age"] ;;
  y <- DataFrame_getitem data "name" ;;
  poly_features <- PolynomialFeatures 2 ;;
  X_poly <- fit_transform poly_features X ;;
  model0 <- LinearRegression ;;
  model <- fit model0 X_poly y ;;
  k X_poly model.

Definition report (model : sklearn.LinearRegression) : Py unit :=
  coef <- get_coef_ model ;;
  print ["Coefficients:"; str_ndarray L coef] ;;;
  intercept <- get_intercept_ model ;;
  print ["Intercept:"; str_float64 L intercept].

(** What a run leaves behind: the calls it logged and the text it wrote. *)
Definition trace (w : World) : list call :=
  skipn (List.length (calls w)) (calls (snd (main w))).

Fixpoint string_drop (n : nat) (s : string) : string :=
  match n, s with
  | 0, _ => s
  | S n', String _ s' => string_drop n' s'
  | S _, EmptyString => EmptyString
  end.

Definition output (w : World) : string :=
  string_drop (String.length (stdout w)) (stdout (snd (main w))).

Definition input_file (w : World) : option string :=
  fs w (os_path_join (cwd w) "sample.csv").

End Script.

(** ** A small library instance, for running the script on examples

    A comma-separated-values reader for unsigned whole numbers and text, a
    stand-in for the solver, and numpy-style rendering with lines broken at
    75 characters.  The theorems below hold for every [Library]; this one
    serves to evaluate the script on concrete worlds. *)

Module Demo.

Local Open Scope float_scope.

Fixpoint split_on (sep : ascii) (s : string) : list string :=
  match s with
  | EmptyString => [EmptyString]
  | String c s' =>
      if Ascii.eqb c sep then EmptyString :: split_on sep s'
      else match split_on sep s' with
           | [] => [String c EmptyString]
           | f :: rest => String c f :: rest
           end
  end.

Definition digit (c : ascii) : option float :=
  let n := nat_of_ascii c in
  if ((48 <=? n) && (n <=? 57))%nat
  then Some (nth (n - 48) [0; 1; 2; 3; 4; 5; 6; 7; 8; 9] nan)
  else None.

Fixpoint parse_digits (acc : float) (s : string) : option float :=
  match s with
  | EmptyString => Some acc
  | String c s' =>
      match digit c with
      | Some d => parse_digits (acc * 10 + d) s'
      | None => None
      end
  end.

Definition parse_cell (s : string) : cell :=
  match s with
  | EmptyString => Num nan
  | _ => match parse_digits 0 s with
         | Some x => Num x
         | None => Str s
         end
  end.

Definition read_csv (text : string) : result DataFrame :=
  match filter (fun l => negb (String.eqb l "")) (split_on (ascii_of_nat 10) text) with
  | [] => Raise (ParserError "No columns to parse from file")
  | header :: rows =>
      let names := split_on ","%char header in
      let fields := map (split_on ","%char) rows in
      Ok (map (fun jn => (snd jn, map (fun r => parse_cell (nth (fst jn) r ""%string)) fields))
              (combine (seq 0 (List.length names)) names))
  end.

Definition dot (a b : list float) : float :=
  fold_left add (map (fun xy => fst xy * snd xy) (combine a b)) 0.

Definition column (X : matrix) (j : nat) : list float :=
  map (fun r => nth j r 0) X.

(** Not a least-squares solver: the coefficients returned are the moments
    of the columns against the target, and the intercept the sum of the
    target.  It has the solver's interface: a numeric target of as many
    entries as the matrix has rows, one coefficient per column. *)
Definition lstsq (X : matrix) (y : Series) : result (list float * float) :=
  result_bind (result_mapM sklearn.to_float64 y) (fun t =>
    if (List.length X =? List.length t)%nat
    then Ok (map (fun j => dot (column X j) t) (seq 0 (List.length (hd [] X))),
             fold_left add t 0)
    else Raise (ValueError "Found input variables with inconsistent numbers of samples")).

Definition decision_function (c : list float) (b : float) (X : matrix) : result (list float) :=
  Ok (map (fun r => dot r c + b) X).

Definition str_Z (z : Z) : string := NilZero.string_of_int (Z.to_int z).

(** Whole numbers print as numpy prints them ("12."), other finite values
    as mantissa and binary exponent. *)
Definition str_float64 (x : float) : string :=
  match Prim2SF x with
  | S754_zero s => if s then "-0." else "0."
  | S754_infinity s => if s then "-inf" else "inf"
  | S754_nan => "nan"
  | S754_finite s m e =>
      ((if s then "-" else "") ++
       (if (0 <=? e)%Z then str_Z (Z.pos m * 2 ^ e) ++ "."
        else if (Z.pos m mod 2 ^ (- e) =? 0)%Z then str_Z (Z.pos m / 2 ^ (- e)) ++ "."
        else str_Z (Z.pos m) ++ "p" ++ str_Z e))%string
  end.

Fixpoint rstrip (s : string) : string :=
  match s with
  | EmptyString => EmptyString
  | String c s' =>
      match rstrip s' with
      | EmptyString => if Ascii.eqb c " "%char then EmptyString else String c EmptyString
      | r => String c r
      end
  end.

Definition linewidth : nat := 75.

(** One word more on the current line, or on a new line when the current
    one would grow past the line width. *)
Definition extend_line (done line word : string) : string * string :=
  if ((linewidth - 1 <? String.length line + String.length word)
      && (1 <? String.length line))%nat
  then ((done ++ rstrip line ++ nl)%string, (" " ++ word)%string)
  else (done, (line ++ word)%string).

Fixpoint format_words (words : list string) (done line : string) : string :=
  match words with
  | [] => (done ++ line)%string
  | [w] => let (d, l) := extend_line done line w in (d ++ l)%string
  | w :: rest =>
      let (d, l) := extend_line done line w in format_words rest d (l ++ " ")%string
  end.

Definition str_ndarray (xs : list float) : string :=
  ("[" ++ string_drop 1 (format_words (map str_float64 xs) "" " ") ++ "]")%string.

Definition library : Library :=
  mkLibrary read_csv lstsq decision_function str_ndarray str_float64.

(** A machine with the given files, a run started as [python train.py] in
    [/home/user]. *)
Definition machine (files : list (string * string)) : World :=
  mkWorld (fun p => option_map snd (find (fun f => String.eqb (fst f) p) files))
          "/home/user" [("HOME", "/home/user")]%string ["train.py"]%string "" [].

Definition small_csv : string :=
  ("value,age,name" ++ nl ++ "1,2,3" ++ nl ++ "2,3,5" ++ nl ++ "4,1,7" ++ nl)%string.

Definition large_csv : string :=
  ("value,age,name" ++ nl ++ "1000,2000,3000000000000" ++ nl
   ++ "2000,3000,5000000000000" ++ nl)%string.

Definition no_age_csv : string :=
  ("value,name" ++ nl ++ "1,3" ++ nl ++ "2,5" ++ nl)%string.

Definition small_world : World :=
  machine [("/home/user/sample.csv", small_csv)]%string.

Definition large_world : World :=
  machine [("/home/user/sample.csv", large_csv)]%string.

Definition no_age_world : World :=
  machine [("/home/user/sample.csv", no_age_csv)]%string.

(** The expansion of [small_csv]'s [value] and [age] columns, and its
    [name] column. *)
Definition small_X_poly : matrix :=
  [[1; 1; 2; 1; 2; 4]; [1; 2; 3; 4; 6; 9]; [1; 4; 1; 16; 4; 1]].

Definition small_y : Series := [Num 3; Num 5; Num 7].

(** The machine of [small_world] with a second table next to
    [sample.csv], and arguments and environment that name it. *)
Definition crowded_world : World :=
  set_argv
    (set_environ
       (machine [("/home/user/sample.csv", small_csv);
                 ("/home/user/other.csv", large_csv)]%string)
       [("INPUT", "other.csv")]%string)
    ["train.py"; "other.csv"]%string.

(** Another machine: the same [sample.csv] in another working directory,
    next to another table, with other arguments and environment, and text
    already on standard output. *)
Definition other_world : World :=
  mkWorld (fun p =>
             if String.eqb p "/tmp/run/sample.csv" then Some small_csv
             else if String.eqb p "/tmp/run/other.csv" then Some large_csv
             else None)
          "/tmp/run"
          [("INPUT", "other.csv"); ("SKLEARN_SEED", "7")]%string
          ["train.py"; "--input"; "other.csv"]%string
          ("earlier output" ++ nl)%string
          [c_print ["earlier output"%string]].

(** The table [small_csv] parses to, and the same three columns in
    another order among columns the script never asks for. *)
Definition small_table : DataFrame :=
  [("value", [Num 1; Num 2; Num 4]);
   ("age", [Num 2; Num 3; Num 1]);
   ("name", [Num 3; Num 5; Num 7])]%string.

Definition wide_csv : string :=
  ("id,name,age,city,value" ++ nl ++ "7,3,2,Oslo,1" ++ nl ++ "8,5,3,Rome,2" ++ nl
   ++ "9,7,1,Bonn,4" ++ nl)%string.

Definition wide_table : DataFrame :=
  [("id", [Num 7; Num 8; Num 9]);
   ("name", [Num 3; Num 5; Num 7]);
   ("age", [Num 2; Num 3; Num 1]);
   ("city", [Str "Oslo"; Str "Rome"; Str "Bonn"]);
   ("value", [Num 1; Num 2; Num 4])]%string.

Definition wide_world : World :=
  machine [("/home/user/sample.csv", wide_csv)]%string.

(** A table with its header and no rows, and one with text in [age]. *)
Definition header_only_csv : string := ("value,age,name" ++ nl)%string.

Definition header_only_table : DataFrame :=
  [("value", []); ("age", []); ("name", [])]%string.

Definition header_only_world : World :=
  machine [("/home/user/sample.csv", header_only_csv)]%string.




(** A table with neither [age] nor [name]. *)
Definition only_value_csv : string :=
  ("value" ++ nl ++ "1" ++ nl ++ "2" ++ nl)%string.

Definition only_value_table : DataFrame := [("value", [Num 1; Num 2])]%string.

Definition only_value_world : World :=
  machine [("/home/user/sample.csv", only_value_csv)]%string.

End Demo.

(** ** Steps and phases of a run *)

(** A logged call without its run-time arguments. *)
Inductive step : Type :=
| s_read_csv
| s_getitem_list
| s_getitem
| s_PolynomialFeatures
| s_fit_transform
| s_LinearRegression
| s_fit
| s_predict
| s_print.

Definition step_of (c : call) : step :=
  match c with
  | c_read_csv _ => s_read_csv
  | c_getitem_list _ => s_getitem_list
  | c_getitem _ => s_getitem
  | c_PolynomialFeatures _ => s_PolynomialFeatures
  | c_fit_transform _ => s_fit_transform
  | c_LinearRegression => s_LinearRegression
  | c_fit _ _ => s_fit
  | c_predict _ => s_predict
  | c_print _ => s_print
  end.

(** The statements of train.py in program order. *)
Definition script_steps : list step :=
  [s_read_csv; s_getitem_list; s_getitem; s_PolynomialFeatures; s_fit_transform;
   s_LinearRegression; s_fit; s_predict; s_print; s_print].

(** The five phases the source's comments divide the script into; taking
    the columns out of the table belongs to loading. *)
Inductive phase : Type :=
| PhLoad
| PhTransform
| PhFit
| PhPredict
| PhPrint.

Definition phase_of (s : step) : phase :=
  match s with
  | s_read_csv | s_getitem_list | s_getitem => PhLoad
  | s_PolynomialFeatures | s_fit_transform => PhTransform
  | s_LinearRegression | s_fit => PhFit
  | s_predict => PhPredict
  | s_print => PhPrint
  end.

Definition phase_eqb (p q : phase) : bool :=
  match p, q with
  | PhLoad, PhLoad | PhTransform, PhTransform | PhFit, PhFit
  | PhPredict, PhPredict | PhPrint, PhPrint => true
  | _, _ => false
  end.

(** The phases a list of steps goes through, each maximal run of steps of
    one phase counted once. *)
Fixpoint phases (l : list step) : list phase :=
  match l with
  | [] => []
  | s :: l' =>
      match phases l' with
      | p :: ps => if phase_eqb (phase_of s) p then p :: ps else phase_of s :: p :: ps
      | [] => [phase_of s]
      end
  end.

Definition script_phases : list phase :=
  [PhLoad; PhTransform; PhFit; PhPredict; PhPrint].

Definition steps_run (L : Library) (w : World) : list step :=
  map step_of (trace L w).

Definition is_ok {A : Type} (r : result A) : bool :=
  match r with
  | Ok _ => true
  | Raise _ => false
  end.

(** The calls logged up to each point of the script. *)
Definition calls_load : list call :=
  [c_read_csv "sample.csv"].

Definition calls_features : list call :=
  calls_load ++ [c_getitem_list ["value"; "age"]].

Definition calls_target : list call :=
  calls_features ++ [c_getitem "name"].

Definition calls_transform (X : DataFrame) : list call :=
  calls_target ++ [c_PolynomialFeatures 2; c_fit_transform X].

Definition calls_fit (X : DataFrame) (Xp : matrix) (y : Series) : list call :=
  calls_transform X ++ [c_LinearRegression; c_fit Xp y].

Definition calls_predict (X : DataFrame) (Xp : matrix) (y : Series) : list call :=
  calls_fit X Xp y ++ [c_predict Xp].

Definition coefficients_line (L : Library) (c : list float) : list string :=
  ["Coefficients:"; str_ndarray L c].

Definition intercept_line (L : Library) (b : float) : list string :=
  ["Intercept:"; str_float64 L b].

Definition calls_print (L : Library) (X : DataFrame) (Xp : matrix) (y : Series)
  (c : list float) (b : float) : list call :=
  calls_predict X Xp y ++ [c_print (coefficients_line L c); c_print (intercept_line L b)].

Definition printed_text (L : Library) (c : list float) (b : float) : string :=
  "Coefficients: " ++ str_ndarray L c ++ nl ++ "Intercept: " ++ str_float64 L b ++ nl.

(** The table is loaded and its three columns taken out. *)
Definition loaded (L : Library) (w : World) (data X : DataFrame) (y : Series) : Prop :=
  exists text,
    input_file w = Some text /\ read_csv_parse L text = Ok data /\
    pd.getitem_list data ["value"; "age"] = Ok X /\
    pd.getitem data "name" = Ok y.

(** The ways a run can go: where it stops, with what, after which calls,
    having written what. *)
Inductive run_case (L : Library) (w : World) : result unit -> list call -> string -> Prop :=
| run_no_file :
    input_file w = None ->
    run_case L w (Raise (FileNotFoundError "sample.csv")) calls_load ""
| run_parse_error text e :
    input_file w = Some text ->
    read_csv_parse L text = Raise e ->
    run_case L w (Raise e) calls_load ""
| run_features_error text data e :
    input_file w = Some text ->
    read_csv_parse L text = Ok data ->
    pd.getitem_list data ["value"; "age"] = Raise e ->
    run_case L w (Raise e) calls_features ""
| run_target_error text data X e :
    input_file w = Some text ->
    read_csv_parse L text = Ok data ->
    pd.getitem_list data ["value"; "age"] = Ok X ->
    pd.getitem data "name" = Raise e ->
    run_case L w (Raise e) calls_target ""
| run_transform_error data X y e :
    loaded L w data X y ->
    sklearn.fit_transform (sklearn.PolynomialFeatures_init 2) X = Raise e ->
    run_case L w (Raise e) (calls_transform X) ""
| run_fit_error data X y Xp e :
    loaded L w data X y ->
    sklearn.fit_transform (sklearn.PolynomialFeatures_init 2) X = Ok Xp ->
    lstsq L Xp y = Raise e ->
    run_case L w (Raise e) (calls_fit X Xp y) ""
| run_predict_error data X y Xp c b e :
    loaded L w data X y ->
    sklearn.fit_transform (sklearn.PolynomialFeatures_init 2) X = Ok Xp ->
    lstsq L Xp y = Ok (c, b) ->
    decision_function L c b Xp = Raise e ->
    run_case L w (Raise e) (calls_predict X Xp y) ""
| run_done data X y Xp c b y_pred :
    loaded L w data X y ->
    sklearn.fit_transform (sklearn.PolynomialFeatures_init 2) X = Ok Xp ->
    lstsq L Xp y = Ok (c, b) ->
    decision_function L c b Xp = Ok y_pred ->
    run_case L w (Ok tt) (calls_print L X Xp y c b) (printed_text L c b).

(** The world a run ends in, given the calls it made and the text it wrote. *)
Definition after (w : World) (new : list call) (out : string) : World :=
  mkWorld (fs w) (cwd w) (environ w) (argv w) (stdout w ++ out) (calls w ++ new).

(** The files a list of calls opens. *)
Definition files_opened (l : list call) : list string :=
  flat_map (fun c => match c with c_read_csv p => [p] | _ => [] end) l.

Definition prints (l : list call) : list (list string) :=
  flat_map (fun c => match c with c_print args => [args] | _ => [] end) l.

(** What a run can be observed by: its result and the world it leaves,
    the log of calls apart. *)
Definition observe (rw : result unit * World) : result unit * World :=
  (fst rw, set_calls (snd rw) []).

(** The solver returns one coefficient for each column of the matrix it is
    given (scikit-learn: [coef_] has shape [(n_features,)] for a
    one-dimensional target). *)
Definition coef_per_column (L : Library) : Prop :=
  forall (X : matrix) (y : Series) (c : list float) (b : float),
    lstsq L X y = Ok (c, b) -> List.length c = List.length (hd [] X).

(** A call of the run into pandas or scikit-learn raises [e]: the file is
    not there, the parser rejects its text, a column is missing, the
    expansion rejects the feature columns, the solver rejects the matrix
    and target, or the prediction fails. *)
Definition library_raises (L : Library) (w : World) (e : exn) : Prop :=
  (input_file w = None /\ e = FileNotFoundError "sample.csv") \/
  (exists text, input_file w = Some text /\ read_csv_parse L text = Raise e) \/
  (exists text data,
      input_file w = Some text /\ read_csv_parse L text = Ok data /\
      (pd.getitem_list data ["value"; "age"] = Raise e \/
       exists X, pd.getitem_list data ["value"; "age"] = Ok X /\
                 pd.getitem data "name" = Raise e)) \/
  (exists data X y,
      loaded L w data X y /\
      (sklearn.fit_transform (sklearn.PolynomialFeatures_init 2) X = Raise e \/
       exists Xp,
         sklearn.fit_transform (sklearn.PolynomialFeatures_init 2) X = Ok Xp /\
         (lstsq L Xp y = Raise e \/
          exists c b, lstsq L Xp y = Ok (c, b) /\
                      decision_function L c b Xp = Raise e))).

(** The [KeyError] a table raises when one of the three columns the script
    asks for is missing: the missing feature columns, or else [name]. *)
Definition missing_column_error (data : DataFrame) : exn :=
  match filter (fun k => negb (pd.has_column data k)) ["value"; "age"] with
  | [] => KeyError ["name"]
  | missing => KeyError missing
  end.

(** * Theorems *)

(** ** Strings and lists *)

Lemma string_app_nil_r (s : string) : (s ++ "")%string = s.
Proof.
  induction s as [|c s IH]; simpl.
  - reflexivity.
  - now rewrite IH.
Qed.

Lemma string_app_assoc (a b c : string) :
  ((a ++ b) ++ c)%string = (a ++ (b ++ c))%string.
Proof.
  induction a as [|x a IH]; simpl.
  - reflexivity.
  - now rewrite IH.
Qed.

Lemma string_drop_app (a b : string) :
  string_drop (String.length a) (a ++ b)%string = b.
Proof.
  induction a as [|x a IH]; simpl.
  - now destruct b.
  - exact IH.
Qed.

Lemma skipn_length_app {A : Type} (a b : list A) : skipn (List.length a) (a ++ b) = b.
Proof.
  induction a as [|x a IH]; simpl.
  - reflexivity.
  - exact IH.
Qed.

Lemma count_lines_app (a b : string) :
  count_lines (a ++ b)%string = count_lines a + count_lines b.
Proof.
  induction a as [|x a IH]; simpl.
  - reflexivity.
  - rewrite IH. lia.
Qed.

(** ** Every run is one of the cases *)

Ltac unfold_script :=
  unfold main, main_without_predict, pd_read_csv, DataFrame_getitem_list,
    DataFrame_getitem, PolynomialFeatures, fit_transform, LinearRegression,
    fit, predict, get_coef_, get_intercept_, print, bind, log, lift, ret, raise,
    set_calls, set_stdout;
  cbn [fs cwd environ argv stdout calls fst snd
       sklearn.coef_ sklearn.intercept_ sklearn.fit_intercept
       sklearn.LinearRegression_init].

Ltac close_case :=
  unfold after, calls_print, calls_predict, calls_fit, calls_transform,
    calls_target, calls_features, calls_load, printed_text,
    coefficients_line, intercept_line;
  cbn [fs cwd environ argv stdout calls fst snd String.concat];
  repeat rewrite <- app_assoc;
  repeat rewrite string_app_assoc;
  repeat rewrite string_app_nil_r;
  cbn [app String.append];
  reflexivity.

Lemma main_run_case (L : Library) (w : World) :
  exists r new out, run_case L w r new out /\ main L w = (r, after w new out).
Proof.
  destruct w as [wfs wcwd wenv wargv wout wcalls].
  unfold_script.
  destruct (wfs (os_path_join wcwd "sample.csv")) as [text|] eqn:Hfile.
  2:{ exists (Raise (FileNotFoundError "sample.csv")), calls_load, "".
      split; [apply run_no_file; exact Hfile | close_case]. }
  destruct (read_csv_parse L text) as [data|e] eqn:Hparse.
  2:{ exists (Raise e), calls_load, "".
      split; [apply run_parse_error with text; assumption | close_case]. }
  destruct (pd.getitem_list data ["value"; "age"]) as [X|e] eqn:HX.
  2:{ exists (Raise e), calls_features, "".
      split; [apply run_features_error with text data; assumption | close_case]. }
  destruct (pd.getitem data "name") as [y|e] eqn:Hy.
  2:{ exists (Raise e), calls_target, "".
      split; [apply run_target_error with text data X; assumption | close_case]. }
  assert (Hload : loaded L (mkWorld wfs wcwd wenv wargv wout wcalls) data X y)
    by (exists text; repeat split; assumption).
  destruct (sklearn.fit_transform (sklearn.PolynomialFeatures_init 2) X) as [Xp|e] eqn:HXp.
  2:{ exists (Raise e), (calls_transform X), "".
      split; [apply run_transform_error with data y; assumption | close_case]. }
  destruct (lstsq L Xp y) as [[c b]|e] eqn:Hfit.
  2:{ exists (Raise e), (calls_fit X Xp y), "".
      split; [apply run_fit_error with data; assumption | close_case]. }
  cbn [fst snd sklearn.coef_ sklearn.intercept_].
  destruct (decision_function L c b Xp) as [y_pred|e] eqn:Hpred.
  2:{ exists (Raise e), (calls_predict X Xp y), "".
      split; [apply run_predict_error with data c b; assumption | close_case]. }
  exists (Ok tt), (calls_print L X Xp y c b), (printed_text L c b).
  split; [apply run_done with data y_pred; assumption | close_case].
Qed.

Ltac open_loaded :=
  repeat match goal with
         | Hl : loaded _ _ _ _ _ |- _ =>
             let text := fresh "text" in
             destruct Hl as (text & ? & ? & ? & ?)
         end.

(** The cases exclude one another: a world determines its case. *)
Lemma run_case_functional (L : Library) (w : World)
  (r r' : result unit) (new new' : list call) (out out' : string) :
  run_case L w r new out -> run_case L w r' new' out' ->
  r = r' /\ new = new' /\ out = out'.
Proof.
  intros H H'.
  destruct H; destruct H'; open_loaded;
    repeat match goal with
           | H1 : ?a = _, H2 : ?a = _ |- _ =>
               rewrite H1 in H2; inversion H2; clear H2; subst
           end;
    try discriminate; auto.
Qed.

Lemma run_case_sound (L : Library) (w : World) (r : result unit)
  (new : list call) (out : string) :
  run_case L w r new out -> main L w = (r, after w new out).
Proof.
  intros H.
  destruct (main_run_case L w) as (r' & new' & out' & H' & Hm).
  destruct (run_case_functional _ _ _ _ _ _ _ _ H H') as (-> & -> & ->).
  exact Hm.
Qed.

Lemma run_case_same_input (L : Library) (w w' : World) (r : result unit)
  (new : list call) (out : string) :
  input_file w' = input_file w ->
  run_case L w r new out -> run_case L w' r new out.
Proof.
  intros Hin H.
  destruct H;
    repeat match goal with
           | Hl : loaded _ _ _ _ _ |- _ =>
               destruct Hl as (text & Hfile & Hparse & HX & Hy)
           end;
    rewrite <- Hin in *.
  - now apply run_no_file.
  - now apply run_parse_error with text.
  - now apply run_features_error with text data.
  - now apply run_target_error with text data X.
  - apply run_transform_error with data y; [exists text|]; auto.
  - apply run_fit_error with data; [exists text| |]; auto.
  - apply run_predict_error with data c b; [exists text| | |]; auto.
  - apply run_done with data y_pred; [exists text| | |]; auto.
Qed.

Lemma trace_after (L : Library) (w : World) (r : result unit)
  (new : list call) (out : string) :
  main L w = (r, after w new out) -> trace L w = new.
Proof.
  intros H. unfold trace. rewrite H. cbn [snd after calls].
  apply skipn_length_app.
Qed.

Lemma output_after (L : Library) (w : World) (r : result unit)
  (new : list call) (out : string) :
  main L w = (r, after w new out) -> output L w = out.
Proof.
  intros H. unfold output. rewrite H. cbn [snd after stdout].
  apply string_drop_app.
Qed.

(** A run, summed up: its case, its result, its calls and its text. *)
Lemma run_summary (L : Library) (w : World) :
  exists r new out,
    run_case L w r new out /\ main L w = (r, after w new out) /\
    fst (main L w) = r /\ trace L w = new /\ output L w = out.
Proof.
  destruct (main_run_case L w) as (r & new & out & Hc & Hm).
  exists r, new, out. split; [exact Hc|]. split; [exact Hm|].
  split; [now rewrite Hm|]. split.
  - eapply trace_after; eassumption.
  - eapply output_after; eassumption.
Qed.

(** Two worlds with the same input file: the same result, calls and text. *)
Lemma same_input_same_run (L : Library) (w w' : World) :
  input_file w' = input_file w ->
  fst (main L w') = fst (main L w) /\
  trace L w' = trace L w /\
  output L w' = output L w.
Proof.
  intros Hin.
  destruct (run_summary L w) as (r & new & out & Hc & _ & Hr & Ht & Ho).
  pose proof (run_case_sound _ _ _ _ _ (run_case_same_input _ _ _ _ _ _ Hin Hc)) as Hm'.
  rewrite Hr, Ht, Ho. split; [now rewrite Hm'|]. split.
  - eapply trace_after; eassumption.
  - eapply output_after; eassumption.
Qed.

(** ** The order of the calls *)

(** C1, as stated, fails: on an input file without an [age] column the run
    loads the table, raises [KeyError] when the feature columns are taken
    out, and never reaches the expansion, the fit, the prediction or the
    printing. *)
Lemma run_without_age_column_stops_in_load :
  fst (main Demo.library Demo.no_age_world) = Raise (KeyError ["age"]) /\
  steps_run Demo.library Demo.no_age_world = [s_read_csv; s_getitem_list] /\
  phases (steps_run Demo.library Demo.no_age_world) = [PhLoad] /\
  phases (steps_run Demo.library Demo.no_age_world) <> script_phases.
Proof.
  repeat split; try (vm_compute; reflexivity).
  vm_compute. discriminate.
Qed.

(** C1, amended: for every library and every world, the steps a run takes
    are an initial part of the script's statements in program order; the
    part is the whole script, going through load, transform, fit, predict
    and print in that order, exactly when no call raises, and otherwise it
    ends at the call that raised. *)
Theorem steps_are_initial_part_of_script (L : Library) (w : World) :
  exists n,
    steps_run L w = firstn n script_steps /\
    if is_ok (fst (main L w))
    then n = List.length script_steps /\ phases (steps_run L w) = script_phases
    else 0 < n < List.length script_steps.
Proof.
  destruct (run_summary L w) as (r & new & out & Hc & _ & Hr & Ht & _).
  unfold steps_run. rewrite Hr, Ht.
  destruct Hc; cbn [is_ok].
  - exists 1. split; [reflexivity | cbn; lia].
  - exists 1. split; [reflexivity | cbn; lia].
  - exists 2. split; [reflexivity | cbn; lia].
  - exists 3. split; [reflexivity | cbn; lia].
  - exists 5. split; [reflexivity | cbn; lia].
  - exists 7. split; [reflexivity | cbn; lia].
  - exists 8. split; [reflexivity | cbn; lia].
  - exists 10. repeat split; reflexivity.
Qed.

(** ** What is printed *)

Lemma count_lines_printed_text (L : Library) (c : list float) (b : float) :
  count_lines (printed_text L c b)
  = 2 + count_lines (str_ndarray L c) + count_lines (str_float64 L b).
Proof.
  unfold printed_text.
  repeat rewrite count_lines_app.
  cbn. lia.
Qed.

Lemma fit_call_in_calls_fit (X : DataFrame) (Xp : matrix) (y : Series) :
  In (c_fit Xp y) (calls_fit X Xp y).
Proof.
  unfold calls_fit. apply in_or_app. right. cbn. auto.
Qed.

(** C2, as stated, fails: with coefficients too wide for one line of 75
    characters the array is rendered over two lines, and a run that does
    not abort writes three lines. *)
Lemma wide_coefficients_print_three_lines :
  fst (main Demo.library Demo.large_world) = Ok tt /\
  count_lines (output Demo.library Demo.large_world) = 3.
Proof.
  split; vm_compute; reflexivity.
Qed.

(** C2, amended: a run that does not abort makes exactly two [print]
    calls and writes nothing else: "Coefficients: ", the rendering of the
    fitted coefficient array and a newline, then "Intercept: ", the
    rendering of the fitted intercept and a newline.  That is two lines of
    text plus one for every line break inside the two renderings. *)
Theorem output_is_two_prints (L : Library) (w : World) :
  fst (main L w) = Ok tt ->
  exists Xp y c b,
    In (c_fit Xp y) (trace L w) /\
    lstsq L Xp y = Ok (c, b) /\
    prints (trace L w)
    = [["Coefficients:"; str_ndarray L c]; ["Intercept:"; str_float64 L b]] /\
    output L w
    = ("Coefficients: " ++ str_ndarray L c ++ nl
       ++ "Intercept: " ++ str_float64 L b ++ nl)%string /\
    count_lines (output L w)
    = 2 + count_lines (str_ndarray L c) + count_lines (str_float64 L b).
Proof.
  intros Hok.
  destruct (run_summary L w) as (r & new & out & Hc & _ & Hr & Ht & Ho).
  rewrite Hok in Hr.
  destruct Hc; try discriminate Hr.
  exists Xp, y, c, b.
  rewrite Ht, Ho.
  split.
  { unfold calls_print, calls_predict. do 2 (apply in_or_app; left).
    apply fit_call_in_calls_fit. }
  split; [assumption|].
  split; [reflexivity|].
  split; [reflexivity|].
  apply count_lines_printed_text.
Qed.

Lemma output_is_two_prints_on_small_table :
  fst (main Demo.library Demo.small_world) = Ok tt /\
  exists Xp y c b,
    In (c_fit Xp y) (trace Demo.library Demo.small_world) /\
    lstsq Demo.library Xp y = Ok (c, b) /\
    prints (trace Demo.library Demo.small_world)
    = [["Coefficients:"; str_ndarray Demo.library c];
       ["Intercept:"; str_float64 Demo.library b]] /\
    output Demo.library Demo.small_world
    = ("Coefficients: " ++ str_ndarray Demo.library c ++ nl
       ++ "Intercept: " ++ str_float64 Demo.library b ++ nl)%string /\
    count_lines (output Demo.library Demo.small_world)
    = 2 + count_lines (str_ndarray Demo.library c)
      + count_lines (str_float64 Demo.library b).
Proof.
  split.
  - vm_compute. reflexivity.
  - apply (output_is_two_prints Demo.library Demo.small_world).
    vm_compute. reflexivity.
Defined.

(** ** What the fit is given *)

Lemma getitem_list_value_age (data X : DataFrame) :
  pd.getitem_list data ["value"; "age"] = Ok X ->
  exists value age,
    pd.lookup_column data "value" = Some value /\
    pd.lookup_column data "age" = Some age /\
    X = [("value", value); ("age", age)].
Proof.
  unfold pd.getitem_list, pd.has_column. cbn [filter flat_map].
  destruct (pd.lookup_column data "value") as [value|];
    destruct (pd.lookup_column data "age") as [age|];
    cbn; intros H; inversion H.
  exists value, age. auto.
Qed.

Lemma getitem_name (data : DataFrame) (y : Series) :
  pd.getitem data "name" = Ok y -> pd.lookup_column data "name" = Some y.
Proof.
  unfold pd.getitem.
  destruct (pd.lookup_column data "name"); intros H; inversion H.
  reflexivity.
Qed.

Ltac unfold_calls :=
  unfold calls_print, calls_predict, calls_fit, calls_transform,
    calls_target, calls_features, calls_load in *;
  cbn [app] in *.

Ltac find_call H :=
  unfold_calls; cbn [In] in H;
  repeat (destruct H as [H|H]; try discriminate H);
  try contradiction.

(** The call of [fit] in a run: the table was loaded, its columns taken
    out, and the matrix is the expansion of the feature columns. *)
Lemma fit_call_inversion (L : Library) (w : World) (Xp : matrix) (y : Series) :
  In (c_fit Xp y) (trace L w) ->
  exists data X,
    loaded L w data X y /\
    sklearn.fit_transform (sklearn.PolynomialFeatures_init 2) X = Ok Xp.
Proof.
  intros Hin.
  destruct (run_summary L w) as (r & new & out & Hc & _ & _ & Ht & _).
  rewrite Ht in Hin.
  destruct Hc; find_call Hin; injection Hin as <- <-; eauto.
Qed.

(** C3: whenever the regression is fitted, the target it is given is the
    column named [name] of the loaded table, and the matrix it is given
    is the degree-2 polynomial expansion of the two columns named [value]
    and [age] of that table. *)
Theorem fit_is_of_name_against_value_and_age
  (L : Library) (w : World) (Xp : matrix) (y : Series) :
  In (c_fit Xp y) (trace L w) ->
  exists text data value age,
    input_file w = Some text /\
    read_csv_parse L text = Ok data /\
    pd.lookup_column data "value" = Some value /\
    pd.lookup_column data "age" = Some age /\
    pd.lookup_column data "name" = Some y /\
    sklearn.fit_transform (sklearn.PolynomialFeatures_init 2)
      [("value", value); ("age", age)] = Ok Xp.
Proof.
  intros Hin.
  destruct (fit_call_inversion L w Xp y Hin)
    as (data & X & (text & Hfile & Hparse & HX & Hy) & HXp).
  destruct (getitem_list_value_age data X HX) as (value & age & Hv & Ha & ->).
  exists text, data, value, age.
  repeat split; auto using getitem_name.
Qed.

Lemma fit_call_on_small_table :
  In (c_fit Demo.small_X_poly Demo.small_y) (trace Demo.library Demo.small_world).
Proof.
  vm_compute. do 6 right. left. reflexivity.
Qed.

Lemma fit_is_of_name_against_value_and_age_on_small_table :
  In (c_fit Demo.small_X_poly Demo.small_y) (trace Demo.library Demo.small_world) /\
  exists text data value age,
    input_file Demo.small_world = Some text /\
    read_csv_parse Demo.library text = Ok data /\
    pd.lookup_column data "value" = Some value /\
    pd.lookup_column data "age" = Some age /\
    pd.lookup_column data "name" = Some Demo.small_y /\
    sklearn.fit_transform (sklearn.PolynomialFeatures_init 2)
      [("value", value); ("age", age)] = Ok Demo.small_X_poly.
Proof.
  split.
  - exact fit_call_on_small_table.
  - apply (fit_is_of_name_against_value_and_age Demo.library Demo.small_world).
    exact fit_call_on_small_table.
Defined.

(** ** The polynomial expansion *)

Lemma result_mapM_Ok {A B : Type} (f : A -> result B) (l : list A) (bs : list B) :
  result_mapM f l = Ok bs ->
  List.length bs = List.length l /\
  forall i a, nth_error l i = Some a ->
              exists b, nth_error bs i = Some b /\ f a = Ok b.
Proof.
  revert bs. induction l as [|a0 l IH]; intros bs H; cbn in H.
  - inversion H. split; [reflexivity|].
    intros [|i] a Hi; discriminate Hi.
  - destruct (f a0) as [b0|e] eqn:Hf; [|discriminate H].
    cbn in H.
    destruct (result_mapM f l) as [bs'|e] eqn:Hl; [|discriminate H].
    cbn in H. inversion H; subst bs; clear H.
    destruct (IH bs' eq_refl) as [Hlen Hnth].
    split; [cbn; now rewrite Hlen|].
    intros [|i] a Hi; cbn in Hi |- *.
    + inversion Hi; subst. eauto.
    + auto.
Qed.

Lemma to_float64_Ok (c : cell) (x : float) :
  sklearn.to_float64 c = Ok x -> c = Num x /\ is_finite x = true.
Proof.
  destruct c as [x0|s]; cbn; [|discriminate].
  destruct (is_finite x0) eqn:Hfin; intros H; inversion H; subst.
  auto.
Qed.

Lemma finite_cell_in_range (col : Series) (i : nat) (x : float) :
  nth i col (Num nan) = Num x -> is_finite x = true ->
  nth_error col i = Some (Num x).
Proof.
  intros Hnth Hfin.
  destruct (Nat.lt_ge_cases i (List.length col)) as [Hlt|Hge].
  - rewrite (nth_error_nth' col (Num nan) Hlt). now rewrite Hnth.
  - rewrite (nth_overflow col (Num nan) Hge) in Hnth.
    inversion Hnth; subst x. discriminate Hfin.
Qed.

(** Validation of a table of two columns: one row for every entry of the
    first column, holding the two finite numbers of that row. *)
Lemma check_array_two_columns (k1 k2 : string) (c1 c2 : Series) (M : matrix) :
  sklearn.check_array [(k1, c1); (k2, c2)] = Ok M ->
  List.length M = List.length c1 /\
  forall i, i < List.length c1 ->
    exists v a,
      nth_error c1 i = Some (Num v) /\ nth_error c2 i = Some (Num a) /\
      is_finite v = true /\ is_finite a = true /\
      nth_error M i = Some [v; a].
Proof.
  unfold sklearn.check_array, sklearn.n_samples.
  destruct (List.length c1) as [|n] eqn:Hn; [discriminate|].
  intros H. apply result_mapM_Ok in H. destruct H as [Hlen Hrows].
  rewrite length_seq in Hlen. split; [exact Hlen|].
  intros i Hi.
  destruct (Hrows i i) as (row & Hrow & Hcells).
  { rewrite nth_error_seq. apply Nat.ltb_lt in Hi. now rewrite Hi. }
  unfold sklearn.row_cells in Hcells. cbn [map snd result_mapM] in Hcells.
  destruct (sklearn.to_float64 (nth i c1 (Num nan))) as [v|e] eqn:Hv;
    [|discriminate Hcells].
  destruct (sklearn.to_float64 (nth i c2 (Num nan))) as [a|e] eqn:Ha;
    [|discriminate Hcells].
  cbn in Hcells. inversion Hcells; subst row; clear Hcells.
  apply to_float64_Ok in Hv. destruct Hv as [Hv Hfv].
  apply to_float64_Ok in Ha. destruct Ha as [Ha Hfa].
  exists v, a.
  repeat split; auto using finite_cell_in_range.
Qed.

(** The degree-2 expansion of a row of two features. *)
Lemma transform_row_degree_2 (v a : float) :
  sklearn.transform_row (sklearn.PolynomialFeatures_init 2) 2 [v; a]
  = [one; v; a; PrimFloat.mul v v; PrimFloat.mul v a; PrimFloat.mul a a].
Proof. reflexivity. Qed.

Lemma fit_transform_two_columns (k1 k2 : string) (c1 c2 : Series) (Xp : matrix) :
  sklearn.fit_transform (sklearn.PolynomialFeatures_init 2) [(k1, c1); (k2, c2)] = Ok Xp ->
  List.length Xp = List.length c1 /\
  0 < List.length Xp /\
  forall i, i < List.length c1 ->
    exists v a,
      nth_error c1 i = Some (Num v) /\ nth_error c2 i = Some (Num a) /\
      nth_error Xp i
      = Some [one; v; a; PrimFloat.mul v v; PrimFloat.mul v a; PrimFloat.mul a a].
Proof.
  unfold sklearn.fit_transform.
  destruct (sklearn.check_array [(k1, c1); (k2, c2)]) as [M|e] eqn:HM;
    [|discriminate].
  cbn [result_bind List.length]. intros H. inversion H; subst Xp; clear H.
  pose proof HM as Hpos.
  unfold sklearn.check_array, sklearn.n_samples in Hpos.
  apply check_array_two_columns in HM. destruct HM as [Hlen Hrows].
  rewrite length_map, Hlen.
  split; [reflexivity|]. split.
  { destruct (List.length c1); [discriminate Hpos | lia]. }
  intros i Hi.
  destruct (Hrows i Hi) as (v & a & Hv & Ha & _ & _ & HMi).
  exists v, a. repeat split; auto.
  rewrite nth_error_map, HMi. cbn [option_map].
  now rewrite transform_row_degree_2.
Qed.

(** C6: the matrix given to the fit has one row for every row of the
    table, and the row for values [v] of [value] and [a] of [age] is
    [1, v, a, v*v, v*a, a*a]: every product of at most two of the two
    features. *)
Theorem fit_matrix_is_degree_2_expansion
  (L : Library) (w : World) (Xp : matrix) (y : Series) :
  In (c_fit Xp y) (trace L w) ->
  exists text data value age,
    input_file w = Some text /\
    read_csv_parse L text = Ok data /\
    pd.lookup_column data "value" = Some value /\
    pd.lookup_column data "age" = Some age /\
    List.length Xp = List.length value /\
    forall i, i < List.length value ->
      exists v a,
        nth_error value i = Some (Num v) /\
        nth_error age i = Some (Num a) /\
        nth_error Xp i
        = Some [one; v; a; PrimFloat.mul v v; PrimFloat.mul v a; PrimFloat.mul a a].
Proof.
  intros Hin.
  destruct (fit_call_inversion L w Xp y Hin)
    as (data & X & (text & Hfile & Hparse & HX & Hy) & HXp).
  destruct (getitem_list_value_age data X HX) as (value & age & Hv & Ha & ->).
  apply fit_transform_two_columns in HXp. destruct HXp as (Hlen & _ & Hrows).
  exists text, data, value, age.
  repeat split; auto.
Qed.

Lemma fit_matrix_is_degree_2_expansion_on_small_table :
  In (c_fit Demo.small_X_poly Demo.small_y) (trace Demo.library Demo.small_world) /\
  exists text data value age,
    input_file Demo.small_world = Some text /\
    read_csv_parse Demo.library text = Ok data /\
    pd.lookup_column data "value" = Some value /\
    pd.lookup_column data "age" = Some age /\
    List.length Demo.small_X_poly = List.length value /\
    forall i, i < List.length value ->
      exists v a,
        nth_error value i = Some (Num v) /\
        nth_error age i = Some (Num a) /\
        nth_error Demo.small_X_poly i
        = Some [one; v; a; PrimFloat.mul v v; PrimFloat.mul v a; PrimFloat.mul a a].
Proof.
  split.
  - exact fit_call_on_small_table.
  - apply (fit_matrix_is_degree_2_expansion Demo.library Demo.small_world
             Demo.small_X_poly Demo.small_y).
    exact fit_call_on_small_table.
Defined.

(** ** What a run depends on and what it changes *)

(** C4: two runs on machines with the same input file end the same way
    and print the same text, whatever else differs between the machines. *)
Theorem same_input_file_same_printed_text (L : Library) (w1 w2 : World) :
  input_file w1 = input_file w2 ->
  fst (main L w1) = fst (main L w2) /\
  prints (trace L w1) = prints (trace L w2) /\
  output L w1 = output L w2.
Proof.
  intros Hin.
  destruct (same_input_same_run L w2 w1 Hin) as (Hr & Ht & Ho).
  rewrite Hr, Ht, Ho. auto.
Qed.

Lemma same_input_file_same_printed_text_on_two_machines :
  input_file Demo.small_world = input_file Demo.other_world /\
  fst (main Demo.library Demo.small_world) = fst (main Demo.library Demo.other_world) /\
  prints (trace Demo.library Demo.small_world)
  = prints (trace Demo.library Demo.other_world) /\
  output Demo.library Demo.small_world = output Demo.library Demo.other_world.
Proof.
  split.
  - vm_compute. reflexivity.
  - apply (same_input_file_same_printed_text
             Demo.library Demo.small_world Demo.other_world).
    vm_compute. reflexivity.
Defined.

Lemma files_opened_by_run (L : Library) (w : World) :
  files_opened (trace L w) = ["sample.csv"].
Proof.
  destruct (run_summary L w) as (r & new & out & Hc & _ & _ & Ht & _).
  rewrite Ht. destruct Hc; reflexivity.
Qed.

(** C7: a run leaves the file system, the working directory, the
    environment and the arguments as they were and only appends to
    standard output; and neither the environment nor the arguments have
    any bearing on how it ends or on what it prints. *)
Theorem run_only_appends_to_stdout (L : Library) (w : World) :
  fs (snd (main L w)) = fs w /\
  cwd (snd (main L w)) = cwd w /\
  environ (snd (main L w)) = environ w /\
  argv (snd (main L w)) = argv w /\
  stdout (snd (main L w)) = (stdout w ++ output L w)%string /\
  forall env args,
    fst (main L (set_argv (set_environ w env) args)) = fst (main L w) /\
    output L (set_argv (set_environ w env) args) = output L w.
Proof.
  destruct (run_summary L w) as (r & new & out & _ & Hm & _ & _ & Ho).
  do 4 (split; [now rewrite Hm|]).
  split; [rewrite Ho, Hm; reflexivity|].
  intros env args.
  destruct (same_input_same_run L w (set_argv (set_environ w env) args) eq_refl)
    as (Hr & _ & Ho').
  auto.
Qed.

Lemma input_file_in_cwd (w : World) :
  input_file w = fs w (cwd w ++ "/sample.csv")%string.
Proof. reflexivity. Qed.

(** C10: every run opens the one file named [sample.csv], and it is the
    file of that name in the working directory: machines with the same
    working directory and the same file there run alike, whatever their
    other files, arguments and environment. *)
Theorem only_sample_csv_in_cwd_is_read (L : Library) (w w' : World) :
  cwd w' = cwd w ->
  fs w' (cwd w ++ "/sample.csv")%string = fs w (cwd w ++ "/sample.csv")%string ->
  files_opened (trace L w) = ["sample.csv"] /\
  files_opened (trace L w') = ["sample.csv"] /\
  fst (main L w') = fst (main L w) /\
  output L w' = output L w.
Proof.
  intros Hcwd Hfile.
  assert (Hin : input_file w' = input_file w).
  { rewrite !input_file_in_cwd, Hcwd. exact Hfile. }
  destruct (same_input_same_run L w w' Hin) as (Hr & _ & Ho).
  auto using files_opened_by_run.
Qed.

Lemma only_sample_csv_in_cwd_is_read_on_crowded_machine :
  cwd Demo.crowded_world = cwd Demo.small_world /\
  fs Demo.crowded_world (cwd Demo.small_world ++ "/sample.csv")%string
  = fs Demo.small_world (cwd Demo.small_world ++ "/sample.csv")%string /\
  files_opened (trace Demo.library Demo.small_world) = ["sample.csv"] /\
  files_opened (trace Demo.library Demo.crowded_world) = ["sample.csv"] /\
  fst (main Demo.library Demo.crowded_world) = fst (main Demo.library Demo.small_world) /\
  output Demo.library Demo.crowded_world = output Demo.library Demo.small_world.
Proof.
  split; [reflexivity|].
  split; [vm_compute; reflexivity|].
  apply (only_sample_csv_in_cwd_is_read
           Demo.library Demo.small_world Demo.crowded_world).
  - reflexivity.
  - vm_compute. reflexivity.
Defined.

(** ** Errors *)

Lemma run_case_raise_no_output (L : Library) (w : World) (e : exn)
  (new : list call) (out : string) :
  run_case L w (Raise e) new out -> out = ""%string /\ prints new = [].
Proof.
  intros H. remember (Raise e) as r eqn:Hr.
  destruct H; try discriminate Hr; split; reflexivity.
Qed.

Lemma library_raises_run_case (L : Library) (w : World) (e : exn) :
  library_raises L w e <-> exists new, run_case L w (Raise e) new "".
Proof.
  unfold library_raises. split.
  - intros [(Hfile & ->) | [(text & Hfile & Hparse) | [H | H]]].
    + eexists. exact (run_no_file L w Hfile).
    + eexists. exact (run_parse_error L w text e Hfile Hparse).
    + destruct H as (text & data & Hfile & Hparse & [HX | (X & HX & Hy)]).
      * eexists. exact (run_features_error L w text data e Hfile Hparse HX).
      * eexists. exact (run_target_error L w text data X e Hfile Hparse HX Hy).
    + destruct H as (data & X & y & Hload & [HXp | (Xp & HXp & [Hfit | H])]).
      * eexists. exact (run_transform_error L w data X y e Hload HXp).
      * eexists. exact (run_fit_error L w data X y Xp e Hload HXp Hfit).
      * destruct H as (c & b & Hfit & Hpred).
        eexists. exact (run_predict_error L w data X y Xp c b e Hload HXp Hfit Hpred).
  - intros (new & H). remember (Raise e) as r eqn:Hr.
    destruct H; inversion Hr; subst.
    + left. auto.
    + right; left. eauto.
    + right; right; left. eauto 8.
    + right; right; left. eauto 8.
    + right; right; right. eauto 8.
    + right; right; right. eauto 10.
    + right; right; right. exists data, X, y. split; [assumption|].
      right. exists Xp. split; [assumption|]. right. eauto.
Qed.

Lemma missing_column_raises (data : DataFrame) :
  pd.has_column data "value" && pd.has_column data "age"
  && pd.has_column data "name" = false ->
  pd.getitem_list data ["value"; "age"] = Raise (missing_column_error data) \/
  exists X, pd.getitem_list data ["value"; "age"] = Ok X /\
            pd.getitem data "name" = Raise (missing_column_error data).
Proof.
  unfold missing_column_error, pd.getitem_list, pd.getitem, pd.has_column.
  cbn [filter flat_map].
  destruct (pd.lookup_column data "value");
    destruct (pd.lookup_column data "age");
    destruct (pd.lookup_column data "name");
    cbn; intros H; try discriminate H; eauto.
Qed.

(** C5: the script checks nothing itself and handles nothing.  A file
    the parser rejects ends the run with the parser's exception; a table
    without one of the columns [value], [age], [name] ends it with the
    [KeyError] of the missing column; in general the run ends with an
    exception exactly when a call into the library raised it, with that
    exception, and then nothing has been printed. *)
Theorem library_errors_end_the_run (L : Library) (w : World) :
  (forall text e,
      input_file w = Some text -> read_csv_parse L text = Raise e ->
      fst (main L w) = Raise e) /\
  (forall text data,
      input_file w = Some text -> read_csv_parse L text = Ok data ->
      pd.has_column data "value" && pd.has_column data "age"
      && pd.has_column data "name" = false ->
      fst (main L w) = Raise (missing_column_error data)) /\
  (forall e, library_raises L w e <-> fst (main L w) = Raise e) /\
  (forall e, fst (main L w) = Raise e ->
             output L w = ""%string /\ prints (trace L w) = []).
Proof.
  assert (Hraise : forall e new, run_case L w (Raise e) new "" ->
                                 fst (main L w) = Raise e).
  { intros e new H. now rewrite (run_case_sound _ _ _ _ _ H). }
  split; [|split; [|split]].
  - intros text e Hfile Hparse.
    eapply Hraise. apply run_parse_error with text; eassumption.
  - intros text data Hfile Hparse Hmiss.
    destruct (missing_column_raises data Hmiss) as [HX | (X & HX & Hy)].
    + eapply Hraise. apply run_features_error with text data; eassumption.
    + eapply Hraise. apply run_target_error with text data X; eassumption.
  - intros e. rewrite library_raises_run_case. split.
    + intros (new & H). eauto.
    + intros He.
      destruct (run_summary L w) as (r & new & out & Hc & _ & Hr & _ & _).
      rewrite He in Hr. subst r.
      destruct (run_case_raise_no_output _ _ _ _ _ Hc) as (-> & _).
      eauto.
  - intros e He.
    destruct (run_summary L w) as (r & new & out & Hc & _ & Hr & Ht & Ho).
    rewrite He in Hr. subst r.
    rewrite Ht, Ho. eapply run_case_raise_no_output; eassumption.
Qed.

Example table_without_age_raises_KeyError :
  fst (main Demo.library Demo.no_age_world) = Raise (KeyError ["age"]) /\
  output Demo.library Demo.no_age_world = ""%string.
Proof. split; vm_compute; reflexivity. Qed.

Example empty_file_raises_ParserError :
  fst (main Demo.library (Demo.machine [("/home/user/sample.csv", "")]%string))
  = Raise (ParserError "No columns to parse from file").
Proof. vm_compute. reflexivity. Qed.

Example absent_file_raises_FileNotFoundError :
  fst (main Demo.library (Demo.machine [])) = Raise (FileNotFoundError "sample.csv").
Proof. vm_compute. reflexivity. Qed.

(** ** The prediction *)

Lemma main_is_until_fit (L : Library) :
  main L
  = until_fit L (fun X_poly model =>
                   bind (predict L model X_poly) (fun _ => report L model)).
Proof. reflexivity. Qed.

Lemma main_without_predict_is_until_fit (L : Library) :
  main_without_predict L = until_fit L (fun _ model => report L model).
Proof. reflexivity. Qed.

(** The statements up to the fit either raise, whatever follows them, or
    hand the expanded matrix and the fitted model to what follows. *)
Lemma until_fit_cases (L : Library) (w : World) :
  (exists e w1, forall k, until_fit L k w = (Raise e, w1)) \/
  (exists data X y Xp c b,
      loaded L w data X y /\
      sklearn.fit_transform (sklearn.PolynomialFeatures_init 2) X = Ok Xp /\
      lstsq L Xp y = Ok (c, b) /\
      forall k,
        until_fit L k w
        = k Xp (sklearn.mkLinearRegression true (Some c) (Some b))
            (after w (calls_fit X Xp y) "")).
Proof.
  destruct w as [wfs wcwd wenv wargv wout wcalls].
  unfold loaded, input_file, until_fit. unfold_script.
  destruct (wfs (os_path_join wcwd "sample.csv")) as [text|] eqn:Hfile;
    [|left; eauto].
  destruct (read_csv_parse L text) as [data|e] eqn:Hparse; [|left; eauto].
  destruct (pd.getitem_list data ["value"; "age"]) as [X|e] eqn:HX; [|left; eauto].
  destruct (pd.getitem data "name") as [y|e] eqn:Hy; [|left; eauto].
  destruct (sklearn.fit_transform (sklearn.PolynomialFeatures_init 2) X)
    as [Xp|e] eqn:HXp; [|left; eauto].
  destruct (lstsq L Xp y) as [[c b]|e] eqn:Hfit; [|left; eauto].
  right. exists data, X, y, Xp, c, b.
  split; [exists text; auto|]. split; [exact HXp|]. split; [exact Hfit|].
  intros k. cbn [fst snd]. f_equal. close_case.
Qed.

(** The script without its [predict] statement behaves as the script
    does, unless the prediction is reached and itself raises. *)
Lemma main_without_predict_observed (L : Library) (w : World) :
  observe (main L w) = observe (main_without_predict L w) \/
  exists data X y Xp c b e,
    loaded L w data X y /\
    sklearn.fit_transform (sklearn.PolynomialFeatures_init 2) X = Ok Xp /\
    lstsq L Xp y = Ok (c, b) /\
    decision_function L c b Xp = Raise e.
Proof.
  rewrite main_is_until_fit, main_without_predict_is_until_fit.
  destruct (until_fit_cases L w)
    as [(e & w1 & Hk) | (data & X & y & Xp & c & b & Hload & HXp & Hfit & Hk)].
  - left. now rewrite !Hk.
  - rewrite !Hk.
    destruct (decision_function L c b Xp) as [y_pred|e] eqn:Hpred.
    + left. destruct w as [wfs wcwd wenv wargv wout wcalls].
      unfold observe, report, after. unfold_script. rewrite Hpred.
      reflexivity.
    + right. exists data, X, y, Xp, c, b, e. auto.
Qed.

(** C8: the value of [y_pred] is never used.  The script without the
    [predict] statement ends the same way, prints the same text and
    leaves the same world as the script, except on the runs that the
    prediction itself ends with an exception. *)
Theorem script_without_predict_is_equivalent (L : Library) (w : World) :
  observe (main L w) = observe (main_without_predict L w) \/
  exists Xp c b e,
    In (c_predict Xp) (trace L w) /\
    decision_function L c b Xp = Raise e /\
    fst (main L w) = Raise e.
Proof.
  destruct (main_without_predict_observed L w)
    as [Heq | (data & X & y & Xp & c & b & e & Hload & HXp & Hfit & Hpred)].
  - left. exact Heq.
  - right. exists Xp, c, b, e.
    pose proof (run_case_sound _ _ _ _ _
                  (run_predict_error L w data X y Xp c b e Hload HXp Hfit Hpred))
      as Hm.
    rewrite (trace_after _ _ _ _ _ Hm), Hm.
    repeat split; auto.
    unfold calls_predict. apply in_or_app. right. cbn. auto.
Qed.

Example script_without_predict_prints_the_same :
  observe (main Demo.library Demo.small_world)
  = observe (main_without_predict Demo.library Demo.small_world).
Proof. vm_compute. reflexivity. Qed.

(** ** The coefficients *)

Lemma demo_coef_per_column : coef_per_column Demo.library.
Proof.
  intros X y c b. cbn [lstsq Demo.library]. unfold Demo.lstsq.
  destruct (result_mapM sklearn.to_float64 y) as [t|e]; [|discriminate].
  cbn [result_bind].
  destruct (Nat.eqb (List.length X) (List.length t)); [|discriminate].
  intros H. inversion H; subst.
  now rewrite length_map, length_seq.
Qed.

(** C9: when the solver returns one coefficient per column, the fitted
    coefficient array has 6 entries, one for each column of the expanded
    matrix, and the first column of that matrix is the constant 1 of the
    bias term; the array is what the first [print] renders, unless the
    prediction raises and nothing is printed. *)
Theorem six_coefficients_first_for_bias
  (L : Library) (w : World) (Xp : matrix) (y : Series) (c : list float) (b : float) :
  coef_per_column L ->
  In (c_fit Xp y) (trace L w) ->
  lstsq L Xp y = Ok (c, b) ->
  List.length c = 6 /\
  Forall (fun row => List.length row = 6 /\ nth_error row 0 = Some one) Xp /\
  (fst (main L w) = Ok tt /\
   prints (trace L w)
   = [["Coefficients:"; str_ndarray L c]; ["Intercept:"; str_float64 L b]]
   \/
   exists e,
     fst (main L w) = Raise e /\ decision_function L c b Xp = Raise e /\
     prints (trace L w) = []).
Proof.
  intros Hshape Hin Hfit.
  destruct (fit_call_inversion L w Xp y Hin) as (data & X & Hload & HXp).
  pose proof Hload as (text & _ & _ & HX & _).
  destruct (getitem_list_value_age data X HX) as (value & age & _ & _ & HXeq).
  pose proof HXp as HXp'. rewrite HXeq in HXp'.
  apply fit_transform_two_columns in HXp'.
  destruct HXp' as (Hlen & Hpos & Hrows).
  assert (Hall : Forall (fun row => List.length row = 6 /\
                                    nth_error row 0 = Some one) Xp).
  { apply Forall_forall. intros row Hrow.
    apply In_nth_error in Hrow. destruct Hrow as (i & Hi).
    assert (Hlt : i < List.length value).
    { rewrite <- Hlen. apply nth_error_Some. now rewrite Hi. }
    destruct (Hrows i Hlt) as (v & a & _ & _ & Hrow).
    rewrite Hi in Hrow. inversion Hrow. split; reflexivity. }
  split.
  { rewrite (Hshape Xp y c b Hfit).
    destruct Xp as [|row Xp']; [cbn in Hpos; lia|].
    cbn [hd]. now inversion Hall. }
  split; [exact Hall|].
  destruct (decision_function L c b Xp) as [y_pred|e] eqn:Hpred.
  - left.
    pose proof (run_case_sound _ _ _ _ _
                  (run_done L w data X y Xp c b y_pred Hload HXp Hfit Hpred)) as Hm.
    rewrite (trace_after _ _ _ _ _ Hm), Hm. split; reflexivity.
  - right. exists e.
    pose proof (run_case_sound _ _ _ _ _
                  (run_predict_error L w data X y Xp c b e Hload HXp Hfit Hpred))
      as Hm.
    rewrite (trace_after _ _ _ _ _ Hm), Hm. repeat split; reflexivity.
Qed.

Lemma six_coefficients_first_for_bias_on_small_table :
  coef_per_column Demo.library /\
  In (c_fit Demo.small_X_poly Demo.small_y) (trace Demo.library Demo.small_world) /\
  lstsq Demo.library Demo.small_X_poly Demo.small_y = Ok ([15; 41; 28; 135; 64; 64]%float, 15%float) /\
  List.length [15; 41; 28; 135; 64; 64]%float = 6 /\
  Forall (fun row => List.length row = 6 /\ nth_error row 0 = Some one) Demo.small_X_poly /\
  (fst (main Demo.library Demo.small_world) = Ok tt /\
   prints (trace Demo.library Demo.small_world)
   = [["Coefficients:"; str_ndarray Demo.library [15; 41; 28; 135; 64; 64]%float];
      ["Intercept:"; str_float64 Demo.library 15%float]]
   \/
   exists e,
     fst (main Demo.library Demo.small_world) = Raise e /\
     decision_function Demo.library [15; 41; 28; 135; 64; 64]%float 15%float
       Demo.small_X_poly = Raise e /\
     prints (trace Demo.library Demo.small_world) = []).
Proof.
  split; [exact demo_coef_per_column|].
  split; [exact fit_call_on_small_table|].
  split; [vm_compute; reflexivity|].
  apply (six_coefficients_first_for_bias Demo.library Demo.small_world
           Demo.small_X_poly Demo.small_y [15; 41; 28; 135; 64; 64]%float 15%float).
  - exact demo_coef_per_column.
  - exact fit_call_on_small_table.
  - vm_compute. reflexivity.
Defined.

(** The index tuples of the degree-2 expansion of two features, and of
    other expansions the same definition gives. *)
Example powers_degree_2_of_two_features :
  sklearn.powers (sklearn.PolynomialFeatures_init 2) 2
  = [[]; [0]; [1]; [0; 0]; [0; 1]; [1; 1]].
Proof. reflexivity. Qed.

Example powers_degree_3_interactions_of_three_features :
  sklearn.powers (sklearn.mkPolynomialFeatures 3 true false) 3
  = [[0]; [1]; [2]; [0; 1]; [0; 2]; [1; 2]; [0; 1; 2]].
Proof. reflexivity. Qed.

(** * Further properties of the script *)

(** ** The prediction and the fit *)

(** X1: the prediction is made on the matrix the model was fitted on,
    with the coefficients and intercept of that fit, and how it ends is
    how the run ends: the run succeeds when it returns and aborts with
    its exception when it raises. *)
Theorem predict_is_on_fitted_matrix (L : Library) (w : World) (Xp : matrix) :
  In (c_predict Xp) (trace L w) ->
  exists y c b,
    In (c_fit Xp y) (trace L w) /\
    lstsq L Xp y = Ok (c, b) /\
    fst (main L w) = result_bind (decision_function L c b Xp) (fun _ => Ok tt).
Proof.
  intros Hin.
  destruct (run_summary L w) as (r & new & out & Hc & _ & Hr & Ht & _).
  rewrite Ht in Hin |- *. rewrite Hr.
  destruct Hc; find_call Hin; injection Hin as <-; exists y, c, b;
    match goal with
    | Hd : decision_function _ _ _ _ = _ |- _ => rewrite Hd
    end;
    cbn [result_bind In]; auto 12.
Qed.

Lemma predict_call_on_small_table :
  In (c_predict Demo.small_X_poly) (trace Demo.library Demo.small_world).
Proof.
  vm_compute. do 7 right. left. reflexivity.
Qed.

Lemma predict_is_on_fitted_matrix_on_small_table :
  In (c_predict Demo.small_X_poly) (trace Demo.library Demo.small_world) /\
  exists y c b,
    In (c_fit Demo.small_X_poly y) (trace Demo.library Demo.small_world) /\
    lstsq Demo.library Demo.small_X_poly y = Ok (c, b) /\
    fst (main Demo.library Demo.small_world)
    = result_bind (decision_function Demo.library c b Demo.small_X_poly)
        (fun _ => Ok tt).
Proof.
  split.
  - exact predict_call_on_small_table.
  - apply (predict_is_on_fitted_matrix Demo.library Demo.small_world).
    exact predict_call_on_small_table.
Defined.

(** X4: the regression is fitted exactly when the file is there and
    parses, the table has the three columns and the expansion accepts
    the feature columns; what the [name] column holds does not decide
    whether the fit is reached. *)
Theorem fit_is_reached_iff_expansion_succeeds
  (L : Library) (w : World) (Xp : matrix) (y : Series) :
  In (c_fit Xp y) (trace L w) <->
  exists data X,
    loaded L w data X y /\
    sklearn.fit_transform (sklearn.PolynomialFeatures_init 2) X = Ok Xp.
Proof.
  split; [apply fit_call_inversion|].
  intros (data & X & Hload & HXp).
  assert (Hreach : forall r new out,
             run_case L w r new out ->
             (exists rest, new = calls_fit X Xp y ++ rest) ->
             In (c_fit Xp y) (trace L w)).
  { intros r new out Hc (rest & ->).
    rewrite (trace_after _ _ _ _ _ (run_case_sound _ _ _ _ _ Hc)).
    apply in_or_app. left. apply fit_call_in_calls_fit. }
  destruct (lstsq L Xp y) as [[c b]|e] eqn:Hfit.
  - destruct (decision_function L c b Xp) as [y_pred|e] eqn:Hpred.
    + apply (Hreach _ _ _ (run_done L w data X y Xp c b y_pred Hload HXp Hfit Hpred)).
      unfold calls_print, calls_predict. rewrite <- app_assoc. eauto.
    + apply (Hreach _ _ _ (run_predict_error L w data X y Xp c b e Hload HXp Hfit Hpred)).
      unfold calls_predict. eauto.
  - apply (Hreach _ _ _ (run_fit_error L w data X y Xp e Hload HXp Hfit)).
    exists []. now rewrite app_nil_r.
Qed.

(** ** The columns the script reads *)

Lemma getitem_list_same_columns (d1 d2 : DataFrame) :
  pd.lookup_column d1 "value" = pd.lookup_column d2 "value" ->
  pd.lookup_column d1 "age" = pd.lookup_column d2 "age" ->
  pd.getitem_list d1 ["value"; "age"] = pd.getitem_list d2 ["value"; "age"].
Proof.
  intros Hv Ha. unfold pd.getitem_list, pd.has_column. cbn [filter flat_map].
  now rewrite Hv, Ha.
Qed.

Lemma getitem_same_column (d1 d2 : DataFrame) (k : string) :
  pd.lookup_column d1 k = pd.lookup_column d2 k ->
  pd.getitem d1 k = pd.getitem d2 k.
Proof.
  intros Hk. unfold pd.getitem. now rewrite Hk.
Qed.

Lemma run_case_same_columns (L : Library) (w1 w2 : World) (t1 t2 : string)
  (d1 d2 : DataFrame) (r : result unit) (new : list call) (out : string) :
  input_file w1 = Some t1 -> read_csv_parse L t1 = Ok d1 ->
  input_file w2 = Some t2 -> read_csv_parse L t2 = Ok d2 ->
  pd.getitem_list d1 ["value"; "age"] = pd.getitem_list d2 ["value"; "age"] ->
  pd.getitem d1 "name" = pd.getitem d2 "name" ->
  run_case L w1 r new out -> run_case L w2 r new out.
Proof.
  intros Hf1 Hp1 Hf2 Hp2 HX Hy Hc.
  assert (Hsame : forall text data,
             input_file w1 = Some text -> read_csv_parse L text = Ok data ->
             data = d1).
  { intros text data Hf Hp. congruence. }
  destruct Hc; open_loaded; try congruence;
    match goal with
    | Hf : input_file w1 = Some ?t, Hp : read_csv_parse L ?t = Ok ?d |- _ =>
        pose proof (Hsame t d Hf Hp); subst d
    end;
    rewrite ?HX, ?Hy in *.
  - now apply run_features_error with t2 d2.
  - now apply run_target_error with t2 d2 X.
  - apply run_transform_error with d2 y; [exists t2|]; auto.
  - apply run_fit_error with d2; [exists t2| |]; auto.
  - apply run_predict_error with d2 c b; [exists t2| | |]; auto.
  - apply run_done with d2 y_pred; [exists t2| | |]; auto.
Qed.

(** X2: of the table only the columns [value], [age] and [name] matter.
    Two runs whose tables agree on these three columns make the same
    calls, end the same way and print the same text, whatever other
    columns the tables hold and in whatever order. *)
Theorem only_three_columns_matter (L : Library) (w1 w2 : World)
  (t1 t2 : string) (d1 d2 : DataFrame) :
  input_file w1 = Some t1 -> read_csv_parse L t1 = Ok d1 ->
  input_file w2 = Some t2 -> read_csv_parse L t2 = Ok d2 ->
  (forall k, In k ["value"; "age"; "name"] ->
             pd.lookup_column d1 k = pd.lookup_column d2 k) ->
  fst (main L w1) = fst (main L w2) /\
  trace L w1 = trace L w2 /\
  output L w1 = output L w2.
Proof.
  intros Hf1 Hp1 Hf2 Hp2 Hcols.
  assert (HX : pd.getitem_list d1 ["value"; "age"] = pd.getitem_list d2 ["value"; "age"]).
  { apply getitem_list_same_columns; apply Hcols; cbn; auto. }
  assert (Hy : pd.getitem d1 "name" = pd.getitem d2 "name").
  { apply getitem_same_column, Hcols. cbn. auto. }
  destruct (run_summary L w1) as (r & new & out & Hc & _ & Hr & Ht & Ho).
  pose proof (run_case_sound _ _ _ _ _
                (run_case_same_columns L w1 w2 t1 t2 d1 d2 r new out
                   Hf1 Hp1 Hf2 Hp2 HX Hy Hc)) as Hm2.
  rewrite Hr, Ht, Ho, (trace_after _ _ _ _ _ Hm2), (output_after _ _ _ _ _ Hm2), Hm2.
  auto.
Qed.

Lemma only_three_columns_matter_on_wide_table :
  (input_file Demo.small_world = Some Demo.small_csv /\
   read_csv_parse Demo.library Demo.small_csv = Ok Demo.small_table /\
   input_file Demo.wide_world = Some Demo.wide_csv /\
   read_csv_parse Demo.library Demo.wide_csv = Ok Demo.wide_table) /\
  fst (main Demo.library Demo.small_world) = fst (main Demo.library Demo.wide_world) /\
  trace Demo.library Demo.small_world = trace Demo.library Demo.wide_world /\
  output Demo.library Demo.small_world = output Demo.library Demo.wide_world.
Proof.
  split.
  - repeat split; vm_compute; reflexivity.
  - apply (only_three_columns_matter Demo.library Demo.small_world Demo.wide_world
             Demo.small_csv Demo.wide_csv Demo.small_table Demo.wide_table);
      try (vm_compute; reflexivity).
    intros k [<- | [<- | [<- | []]]]; vm_compute; reflexivity.
Defined.

(** ** The report *)

(** X3: the report is all or nothing.  If a run writes anything at all,
    then every statement succeeded, the prediction included although its
    value is not used, and what was written is the whole report of the
    fitted coefficients and intercept. *)
Theorem any_output_is_the_whole_report (L : Library) (w : World) :
  output L w <> ""%string ->
  fst (main L w) = Ok tt /\
  exists Xp y c b y_pred,
    In (c_fit Xp y) (trace L w) /\
    lstsq L Xp y = Ok (c, b) /\
    decision_function L c b Xp = Ok y_pred /\
    output L w = printed_text L c b.
Proof.
  intros Hout.
  destruct (run_summary L w) as (r & new & out & Hc & _ & Hr & Ht & Ho).
  rewrite Ho in Hout |- *. rewrite Hr, Ht.
  destruct Hc; try (exfalso; apply Hout; reflexivity).
  split; [reflexivity|].
  exists Xp, y, c, b, y_pred.
  repeat split; auto.
  unfold calls_print, calls_predict. do 2 (apply in_or_app; left).
  apply fit_call_in_calls_fit.
Qed.

Lemma any_output_is_the_whole_report_on_small_table :
  output Demo.library Demo.small_world <> ""%string /\
  fst (main Demo.library Demo.small_world) = Ok tt /\
  exists Xp y c b y_pred,
    In (c_fit Xp y) (trace Demo.library Demo.small_world) /\
    lstsq Demo.library Xp y = Ok (c, b) /\
    decision_function Demo.library c b Xp = Ok y_pred /\
    output Demo.library Demo.small_world = printed_text Demo.library c b.
Proof.
  assert (H : output Demo.library Demo.small_world <> ""%string)
    by (vm_compute; discriminate).
  split; [exact H|].
  exact (any_output_is_the_whole_report Demo.library Demo.small_world H).
Defined.

(** ** Running the script again *)

(** X5: a run changes nothing it reads, so a second run in the world the
    first one left makes the same calls, ends the same way and writes
    the same text once more after the first. *)
Theorem second_run_repeats_the_first (L : Library) (w : World) :
  fst (main L (snd (main L w))) = fst (main L w) /\
  trace L (snd (main L w)) = trace L w /\
  output L (snd (main L w)) = output L w /\
  stdout (snd (main L (snd (main L w))))
  = (stdout w ++ output L w ++ output L w)%string.
Proof.
  destruct (run_summary L w) as (r & new & out & _ & Hm & _ & _ & Ho).
  assert (Hin : input_file (snd (main L w)) = input_file w) by now rewrite Hm.
  destruct (same_input_same_run L w (snd (main L w)) Hin) as (Hr' & Ht' & Ho').
  repeat split; auto.
  destruct (run_summary L (snd (main L w)))
    as (r2 & new2 & out2 & _ & Hm2 & _ & _ & Ho2).
  rewrite Hm2. cbn [snd after stdout].
  rewrite <- Ho2, Ho', Hm. cbn [snd after stdout].
  rewrite Ho. now rewrite string_app_assoc.
Qed.

(** ** Feature columns the expansion rejects *)







Example table_without_rows_raises_ValueError :
  fst (main Demo.library Demo.header_only_world)
  = Raise (ValueError "Found array with 0 sample(s)") /\
  steps_run Demo.library Demo.header_only_world
  = [s_read_csv; s_getitem_list; s_getitem; s_PolynomialFeatures; s_fit_transform].
Proof. split; vm_compute; reflexivity. Qed.

(** ** Which missing column is reported *)

(** X7: the feature columns are taken out before the target.  When
    [value] or [age] is missing, the run aborts at [data[['value',
    'age']]] with a [KeyError] that lists exactly the missing feature
    columns; [data['name']] is never evaluated, so a missing [name] is
    not reported then. *)
Theorem missing_feature_is_reported_first
  (L : Library) (w : World) (text : string) (data : DataFrame) :
  input_file w = Some text ->
  read_csv_parse L text = Ok data ->
  pd.has_column data "value" && pd.has_column data "age" = false ->
  exists keys,
    fst (main L w) = Raise (KeyError keys) /\
    keys = filter (fun k => negb (pd.has_column data k)) ["value"; "age"] /\
    0 < List.length keys /\
    steps_run L w = [s_read_csv; s_getitem_list].
Proof.
  intros Hfile Hparse Hmiss.
  exists (filter (fun k => negb (pd.has_column data k)) ["value"; "age"]).
  assert (Hpos : 0 < List.length
                       (filter (fun k => negb (pd.has_column data k)) ["value"; "age"])).
  { cbn [filter].
    destruct (pd.has_column data "value"); destruct (pd.has_column data "age");
      cbn; try lia; discriminate Hmiss. }
  assert (HX : pd.getitem_list data ["value"; "age"]
               = Raise (KeyError (filter (fun k => negb (pd.has_column data k))
                                         ["value"; "age"]))).
  { unfold pd.getitem_list.
    destruct (filter (fun k => negb (pd.has_column data k)) ["value"; "age"]);
      [cbn in Hpos; lia | reflexivity]. }
  pose proof (run_case_sound _ _ _ _ _
                (run_features_error L w text data _ Hfile Hparse HX)) as Hm.
  unfold steps_run. rewrite (trace_after _ _ _ _ _ Hm), Hm.
  repeat split; auto.
Qed.

Lemma missing_feature_is_reported_first_on_value_only_table :
  (input_file Demo.only_value_world = Some Demo.only_value_csv /\
   read_csv_parse Demo.library Demo.only_value_csv = Ok Demo.only_value_table /\
   pd.has_column Demo.only_value_table "name" = false) /\
  exists keys,
    fst (main Demo.library Demo.only_value_world) = Raise (KeyError keys) /\
    keys = filter (fun k => negb (pd.has_column Demo.only_value_table k))
             ["value"; "age"] /\
    0 < List.length keys /\
    steps_run Demo.library Demo.only_value_world = [s_read_csv; s_getitem_list].
Proof.
  split.
  - repeat split; vm_compute; reflexivity.
  - apply (missing_feature_is_reported_first Demo.library Demo.only_value_world
             Demo.only_value_csv Demo.only_value_table);
      vm_compute; reflexivity.
Defined.
